(** * Talos interactive installer: wizard state and the DiskSize codec

    A shallow embedding of
      - internal/pkg/tui/installer/state.go  (NewState, State.GenConfig, cniPresets)
      - pkg/machinery/config/types/v1alpha1/v1alpha1_types.go
        (DiskSize.MarshalYAML, DiskSize.UnmarshalYAML)
    and the properties of the wizard that follow from them.

    Go values are modelled as follows: [string] is a Rocq string, integers are
    [Z], a [(T, error)] result is [result T], a [map[string]*T] is a
    [gmap string T], a slice is a list, and a pointer into the request
    (the destination an item edits) is a [Dest], a named path which [load]
    and [store] dereference. *)

From Stdlib Require Import Ascii.
From stdpp Require Import gmap strings list pretty.

Local Open Scope Z_scope.

(** ** Go results *)

Inductive error : Type := errorString (msg : string).

Inductive result (A : Type) : Type :=
  | Ok (a : A)
  | Err (e : error).
Arguments Ok {A} a.
Arguments Err {A} e.

(** ** machine.Type: the roles a node can take *)
Module machine.
Inductive Type_ := TypeInit | TypeControlPlane | TypeJoin.
End machine.

(** ** fmt.Sprintf, for the verbs the installer uses *)
Module fmt.
Inductive arg := Str (s : string) | Int (n : Z).

Definition bad_verb (v : string) (a : option arg) : string :=
  match a with
  | None => "%!" +:+ v +:+ "(MISSING)"
  | Some (Str s) => "%!" +:+ v +:+ "(string=" +:+ s +:+ ")"
  | Some (Int n) => "%!" +:+ v +:+ "(int=" +:+ pretty n +:+ ")"
  end.

Fixpoint Sprintf (format : string) (args : list arg) : string :=
  match format with
  | EmptyString => EmptyString
  | String "%"%char (String "s"%char rest) =>
      match args with
      | Str s :: args' => s +:+ Sprintf rest args'
      | a :: args' => bad_verb "s" (Some a) +:+ Sprintf rest args'
      | [] => bad_verb "s" None +:+ Sprintf rest []
      end
  | String "%"%char (String "d"%char rest) =>
      match args with
      | Int n :: args' => pretty n +:+ Sprintf rest args'
      | a :: args' => bad_verb "d" (Some a) +:+ Sprintf rest args'
      | [] => bad_verb "d" None +:+ Sprintf rest []
      end
  | String c rest => String c (Sprintf rest args)
  end.
End fmt.

(** ** pkg/machinery/api: the messages the installer fills in

    The messages are declared in generated code outside the files embedded
    here; the records below have the fields state.go reads and writes,
    under the names it uses. *)
Module storage.
Record Disk := {
  Disk_Size : Z;               (* uint64 *)
  Disk_Model : string;
  Disk_DeviceName : string;
}.

Record Disks := { Disks_Disks : list Disk }.
End storage.

Module machineapi.
(** MachineConfig_MachineType: the wire enum, in the order of machine.Type. *)
Inductive MachineConfig_MachineType :=
  | TYPE_INIT | TYPE_CONTROL_PLANE | TYPE_JOIN.

(** The conversion machineapi.MachineConfig_MachineType(t) keeps the
    ordinal of [t]. *)
Definition MachineType_of (t : machine.Type_) : MachineConfig_MachineType :=
  match t with
  | machine.TypeInit => TYPE_INIT
  | machine.TypeControlPlane => TYPE_CONTROL_PLANE
  | machine.TypeJoin => TYPE_JOIN
  end.

Record InstallConfig := {
  InstallConfig_InstallDisk : string;
  InstallConfig_InstallImage : string;
}.

Record NetworkConfig := { NetworkConfig_Hostname : string }.

Record MachineConfig := {
  MachineConfig_Type : MachineConfig_MachineType;
  MachineConfig_InstallConfig : InstallConfig;
  MachineConfig_NetworkConfig : NetworkConfig;
  MachineConfig_KubernetesVersion : string;
}.

Record ControlPlaneConfig := { ControlPlaneConfig_Endpoint : string }.

Record CNIConfig := {
  CNIConfig_Name : string;
  CNIConfig_Urls : list string;
}.

(** [CniConfig] is a pointer that NewState leaves nil: [None]. *)
Record ClusterNetworkConfig := {
  ClusterNetworkConfig_DnsDomain : string;
  ClusterNetworkConfig_CniConfig : option CNIConfig;
}.

Record ClusterConfig := {
  ClusterConfig_Name : string;
  ClusterConfig_ControlPlane : ControlPlaneConfig;
  ClusterConfig_ClusterNetwork : ClusterNetworkConfig;
}.

(** The sub-messages are pointers in Go; NewState allocates every one of
    them and nothing in the package resets them, so they are nested
    records here. *)
Record GenerateConfigurationRequest := {
  ConfigVersion : string;
  MachineConfig_ : MachineConfig;
  ClusterConfig_ : ClusterConfig;
}.

(** The response is opaque to the installer. *)
Inductive GenerateConfigurationResponse :=
  | Response (data : list string) (talosconfig : string).

(** Field updates, one per level of the message. *)
Definition over_MachineConfig (f : MachineConfig -> MachineConfig)
    (r : GenerateConfigurationRequest) : GenerateConfigurationRequest :=
  {| ConfigVersion := ConfigVersion r;
     MachineConfig_ := f (MachineConfig_ r);
     ClusterConfig_ := ClusterConfig_ r |}.

Definition over_ClusterConfig (f : ClusterConfig -> ClusterConfig)
    (r : GenerateConfigurationRequest) : GenerateConfigurationRequest :=
  {| ConfigVersion := ConfigVersion r;
     MachineConfig_ := MachineConfig_ r;
     ClusterConfig_ := f (ClusterConfig_ r) |}.

Definition with_Type (t : MachineConfig_MachineType) (m : MachineConfig) : MachineConfig :=
  {| MachineConfig_Type := t;
     MachineConfig_InstallConfig := MachineConfig_InstallConfig m;
     MachineConfig_NetworkConfig := MachineConfig_NetworkConfig m;
     MachineConfig_KubernetesVersion := MachineConfig_KubernetesVersion m |}.

Definition over_InstallConfig (f : InstallConfig -> InstallConfig) (m : MachineConfig) : MachineConfig :=
  {| MachineConfig_Type := MachineConfig_Type m;
     MachineConfig_InstallConfig := f (MachineConfig_InstallConfig m);
     MachineConfig_NetworkConfig := MachineConfig_NetworkConfig m;
     MachineConfig_KubernetesVersion := MachineConfig_KubernetesVersion m |}.

Definition over_NetworkConfig (f : NetworkConfig -> NetworkConfig) (m : MachineConfig) : MachineConfig :=
  {| MachineConfig_Type := MachineConfig_Type m;
     MachineConfig_InstallConfig := MachineConfig_InstallConfig m;
     MachineConfig_NetworkConfig := f (MachineConfig_NetworkConfig m);
     MachineConfig_KubernetesVersion := MachineConfig_KubernetesVersion m |}.

Definition with_KubernetesVersion (v : string) (m : MachineConfig) : MachineConfig :=
  {| MachineConfig_Type := MachineConfig_Type m;
     MachineConfig_InstallConfig := MachineConfig_InstallConfig m;
     MachineConfig_NetworkConfig := MachineConfig_NetworkConfig m;
     MachineConfig_KubernetesVersion := v |}.

Definition with_InstallDisk (d : string) (i : InstallConfig) : InstallConfig :=
  {| InstallConfig_InstallDisk := d;
     InstallConfig_InstallImage := InstallConfig_InstallImage i |}.

Definition with_InstallImage (img : string) (i : InstallConfig) : InstallConfig :=
  {| InstallConfig_InstallDisk := InstallConfig_InstallDisk i;
     InstallConfig_InstallImage := img |}.

Definition with_Hostname (h : string) (_ : NetworkConfig) : NetworkConfig :=
  {| NetworkConfig_Hostname := h |}.

Definition with_Name (n : string) (c : ClusterConfig) : ClusterConfig :=
  {| ClusterConfig_Name := n;
     ClusterConfig_ControlPlane := ClusterConfig_ControlPlane c;
     ClusterConfig_ClusterNetwork := ClusterConfig_ClusterNetwork c |}.

Definition over_ControlPlane (f : ControlPlaneConfig -> ControlPlaneConfig) (c : ClusterConfig) : ClusterConfig :=
  {| ClusterConfig_Name := ClusterConfig_Name c;
     ClusterConfig_ControlPlane := f (ClusterConfig_ControlPlane c);
     ClusterConfig_ClusterNetwork := ClusterConfig_ClusterNetwork c |}.

Definition over_ClusterNetwork (f : ClusterNetworkConfig -> ClusterNetworkConfig) (c : ClusterConfig) : ClusterConfig :=
  {| ClusterConfig_Name := ClusterConfig_Name c;
     ClusterConfig_ControlPlane := ClusterConfig_ControlPlane c;
     ClusterConfig_ClusterNetwork := f (ClusterConfig_ClusterNetwork c) |}.

Definition with_Endpoint (e : string) (_ : ControlPlaneConfig) : ControlPlaneConfig :=
  {| ControlPlaneConfig_Endpoint := e |}.

Definition with_DnsDomain (d : string) (n : ClusterNetworkConfig) : ClusterNetworkConfig :=
  {| ClusterNetworkConfig_DnsDomain := d;
     ClusterNetworkConfig_CniConfig := ClusterNetworkConfig_CniConfig n |}.

Definition with_CniConfig (c : option CNIConfig) (n : ClusterNetworkConfig) : ClusterNetworkConfig :=
  {| ClusterNetworkConfig_DnsDomain := ClusterNetworkConfig_DnsDomain n;
     ClusterNetworkConfig_CniConfig := c |}.

(** The paths the installer reads and writes, spelled as in the source:
    [opts.MachineConfig.InstallConfig.InstallDisk] and so on. *)
Definition InstallDisk (r : GenerateConfigurationRequest) : string :=
  InstallConfig_InstallDisk (MachineConfig_InstallConfig (MachineConfig_ r)).
Definition InstallImage (r : GenerateConfigurationRequest) : string :=
  InstallConfig_InstallImage (MachineConfig_InstallConfig (MachineConfig_ r)).
Definition Type_ (r : GenerateConfigurationRequest) : MachineConfig_MachineType :=
  MachineConfig_Type (MachineConfig_ r).
Definition Hostname (r : GenerateConfigurationRequest) : string :=
  NetworkConfig_Hostname (MachineConfig_NetworkConfig (MachineConfig_ r)).
Definition KubernetesVersion (r : GenerateConfigurationRequest) : string :=
  MachineConfig_KubernetesVersion (MachineConfig_ r).
Definition Name (r : GenerateConfigurationRequest) : string :=
  ClusterConfig_Name (ClusterConfig_ r).
Definition Endpoint (r : GenerateConfigurationRequest) : string :=
  ControlPlaneConfig_Endpoint (ClusterConfig_ControlPlane (ClusterConfig_ r)).
Definition DnsDomain (r : GenerateConfigurationRequest) : string :=
  ClusterNetworkConfig_DnsDomain (ClusterConfig_ClusterNetwork (ClusterConfig_ r)).
Definition CniConfig (r : GenerateConfigurationRequest) : option CNIConfig :=
  ClusterNetworkConfig_CniConfig (ClusterConfig_ClusterNetwork (ClusterConfig_ r)).

Definition set_InstallDisk (d : string) := over_MachineConfig (over_InstallConfig (with_InstallDisk d)).
Definition set_InstallImage (i : string) := over_MachineConfig (over_InstallConfig (with_InstallImage i)).
Definition set_Type (t : MachineConfig_MachineType) := over_MachineConfig (with_Type t).
Definition set_Hostname (h : string) := over_MachineConfig (over_NetworkConfig (with_Hostname h)).
Definition set_KubernetesVersion (v : string) := over_MachineConfig (with_KubernetesVersion v).
Definition set_Name (n : string) := over_ClusterConfig (with_Name n).
Definition set_Endpoint (e : string) := over_ClusterConfig (over_ControlPlane (with_Endpoint e)).
Definition set_DnsDomain (d : string) := over_ClusterConfig (over_ClusterNetwork (with_DnsDomain d)).
Definition set_CniConfig (c : option CNIConfig) := over_ClusterConfig (over_ClusterNetwork (with_CniConfig c)).
End machineapi.


(** ** interface{}: the dynamically typed values the code passes around *)
Inductive any :=
  | AString (s : string)
  | AUint64 (n : Z)
  | AMachineType (t : machineapi.MachineConfig_MachineType)
  | ATableHeaders (headers : list string).

(** ** pkg/machinery/constants and pkg/images

    The values are declared outside the files embedded here; the code only
    names them, so they are taken as given. *)
Module constants.
Class Values := {
  DefaultControlPlanePort : Z;
  DefaultCNI : string;
  DefaultKubernetesVersion : string;
}.
End constants.

Module images.
Class Values := { DefaultInstallerImage : string }.
End images.

(** ** github.com/dustin/go-humanize *)
Module humanize.
(** The two functions the code calls:
    [func Bytes(s uint64) string] and
    [func ParseBytes(s string) (uint64, error)]. *)
Class API := {
  Bytes : Z -> string;
  ParseBytes : string -> result Z;
}.

(** An exact-arithmetic rendition of the library (decimal units, one
    fractional digit below 10, otherwise none), where the library goes
    through float64. It instantiates [API] in the examples below; the
    theorems hold for every instance. *)
Definition sizes : list string := ["B"; "kB"; "MB"; "GB"; "TB"; "PB"; "EB"].

(** floor (log_1000 s) *)
Fixpoint logn1000 (fuel : nat) (s : Z) : nat :=
  match fuel with
  | O => O
  | S fuel' => if s <? 1000 then O else S (logn1000 fuel' (s / 1000))
  end.

(** "%.0f" of val10/10: to nearest, ties to even. *)
Definition format_round (val10 : Z) : string :=
  let q := val10 / 10 in
  let r := val10 mod 10 in
  pretty (if (r <? 5) || ((r =? 5) && Z.even q) then q else q + 1).

Definition exact_Bytes (s : Z) : string :=
  if s <? 10 then fmt.Sprintf "%d B" [fmt.Int s] else
  let e := logn1000 6 s in
  let suffix := default EmptyString (sizes !! e) in
  let p := 1000 ^ Z.of_nat e in
  (* val = floor (s / p * 10 + 0.5) / 10 *)
  let val10 := (20 * s + p) / (2 * p) in
  if val10 <? 100
  then pretty (val10 / 10) +:+ "." +:+ pretty (val10 mod 10) +:+ " " +:+ suffix
  else format_round val10 +:+ " " +:+ suffix.

Definition is_digit (c : ascii) : bool :=
  let n := N_of_ascii c in ((48 <=? n) && (n <=? 57))%N.

Definition digit_val (c : ascii) : Z := Z.of_N (N_of_ascii c) - 48.

(** The leading run of digits, dots and commas, and what follows it. *)
Fixpoint span_number (s : string) : string * string :=
  match s with
  | EmptyString => (EmptyString, EmptyString)
  | String c rest =>
      if is_digit c || bool_decide (c = "."%char) || bool_decide (c = ","%char)
      then let '(num, extra) := span_number rest in (String c num, extra)
      else (EmptyString, s)
  end.

Fixpoint remove_commas (s : string) : string :=
  match s with
  | EmptyString => EmptyString
  | String c rest =>
      if bool_decide (c = ","%char) then remove_commas rest
      else String c (remove_commas rest)
  end.

(** strconv.ParseFloat on a string of digits and dots: the value is
    [num / scale]; no digit at all or a second dot is a syntax error. *)
Fixpoint parse_decimal (s : string) (seen_dot digits : bool) (num scale : Z) : option (Z * Z) :=
  match s with
  | EmptyString => if digits then Some (num, scale) else None
  | String c rest =>
      if is_digit c
      then parse_decimal rest seen_dot true (10 * num + digit_val c)
                         (if seen_dot then 10 * scale else scale)
      else if bool_decide (c = "."%char)
      then (if seen_dot then None else parse_decimal rest true digits num scale)
      else None
  end.

Definition to_lower (c : ascii) : ascii :=
  let n := N_of_ascii c in
  if ((65 <=? n) && (n <=? 90))%N then ascii_of_N (n + 32) else c.

Fixpoint ToLower (s : string) : string :=
  match s with
  | EmptyString => EmptyString
  | String c rest => String (to_lower c) (ToLower rest)
  end.

Fixpoint trim_left (s : string) : string :=
  match s with
  | String c rest => if Ascii.is_space c then trim_left rest else s
  | EmptyString => EmptyString
  end.

Definition TrimSpace (s : string) : string :=
  String.rev (trim_left (String.rev (trim_left s))).

Definition bytesSizeTable : gmap string Z :=
  list_to_map [
    ("b", 1); ("kib", 2 ^ 10); ("kb", 10 ^ 3); ("mib", 2 ^ 20); ("mb", 10 ^ 6);
    ("gib", 2 ^ 30); ("gb", 10 ^ 9); ("tib", 2 ^ 40); ("tb", 10 ^ 12);
    ("pib", 2 ^ 50); ("pb", 10 ^ 15); ("eib", 2 ^ 60); ("eb", 10 ^ 18);
    (EmptyString, 1);
    ("ki", 2 ^ 10); ("k", 10 ^ 3); ("mi", 2 ^ 20); ("m", 10 ^ 6);
    ("gi", 2 ^ 30); ("g", 10 ^ 9); ("ti", 2 ^ 40); ("t", 10 ^ 12);
    ("pi", 2 ^ 50); ("p", 10 ^ 15); ("ei", 2 ^ 60); ("e", 10 ^ 18)
  ].

Definition exact_ParseBytes (s : string) : result Z :=
  let '(num, rest) := span_number s in
  match parse_decimal (remove_commas num) false false 0 1 with
  | None => Err (errorString ("strconv.ParseFloat: parsing " +:+ num +:+ ": invalid syntax"))
  | Some (n, scale) =>
      let extra := ToLower (TrimSpace rest) in
      match bytesSizeTable !! extra with
      | Some m =>
          let f := n * m / scale in
          if 2 ^ 64 <=? f then Err (errorString ("too large: " +:+ s)) else Ok f
      | None => Err (errorString ("unhandled size name: " +:+ extra))
      end
  end.

Definition exact : API := {| Bytes := exact_Bytes; ParseBytes := exact_ParseBytes |}.
End humanize.


(** ** strconv, gopkg.in/yaml.v3 and net/url, as far as the schema uses them *)
Module strconv.
Definition digits : string := "0123456789abcdefghijklmnopqrstuvwxyz".

Definition digit (d : Z) : ascii :=
  match String.get (Z.to_nat d) digits with
  | Some c => c
  | None => "0"%char
  end.

(** The loop of FormatUint for a base that is a power of two,
    [for u >= b { i--; a[i] = digits[u&m]; u >>= shift }; i--; a[i] = digits[u]],
    which fills its buffer from the end: [a] is what has been written.
    [fuel] is the size of that buffer. *)
Fixpoint formatBits (fuel : nat) (u shift : Z) (a : string) : string :=
  match fuel with
  | O => a
  | S fuel' =>
      let b := Z.shiftl 1 shift in
      let m := b - 1 in
      if b <=? u
      then formatBits fuel' (Z.shiftr u shift) shift (String (digit (Z.land u m)) a)
      else String (digit u) a
  end.

(** FormatUint(i, base) for base 2, 4, 8, 16 or 32; the buffer has 64 + 1
    cells. *)
Definition FormatUint (i : Z) (base : Z) : string :=
  formatBits 65 i (Z.log2 base) EmptyString.

Definition octal_val (c : ascii) : option Z :=
  let n := Z.of_N (N_of_ascii c) in
  if (48 <=? n) && (n <=? 55) then Some (n - 48) else None.

(** Reading octal digits from the left, [v] being the value so far. *)
Fixpoint parse_octal_from (v : Z) (s : string) : option Z :=
  match s with
  | EmptyString => Some v
  | String c rest =>
      match octal_val c with
      | Some d => parse_octal_from (8 * v + d) rest
      | None => None
      end
  end.

(** ParseInt(s, 8, 64) on unsigned digits: no digit, a foreign character
    or a value beyond int64 is an error. *)
Definition ParseOctal (s : string) : option Z :=
  match s with
  | EmptyString => None
  | _ =>
      match parse_octal_from 0 s with
      | Some v => if v <? 2 ^ 63 then Some v else None
      | None => None
      end
  end.
End strconv.

Module yaml.
Inductive Kind := DocumentNode | SequenceNode | MappingNode | ScalarNode | AliasNode.

(** The fields of yaml.Node the schema sets. *)
Record Node := {
  Node_Kind : Kind;
  Node_Tag : string;
  Node_Value : string;
}.

(** The integer a reader resolves from a plain scalar written with the
    octal prefix: the digits after "0o", read in base 8. *)
Definition resolve_octal (plain : string) : option Z :=
  match plain with
  | String "0"%char (String "o"%char rest) => strconv.ParseOctal rest
  | _ => None
  end.
End yaml.

Module url.
(** The URL type, [url.Parse] and the URL's [String] method, taken as given. *)
Class API := {
  URL : Type;
  Parse : string -> result URL;
  URL_String : URL -> string;
}.
End url.

(** A call either returns or panics. *)
Inductive outcome (A : Type) : Type :=
  | Returns (a : A)
  | Panics.
Arguments Returns {A} a.
Arguments Panics {A}.

(** ** pkg/machinery/config/types/v1alpha1 *)
Module v1alpha1.
(** The documentation tables the installer quotes as help text. They are
    generated into a file of their own; [Describe] is taken as given. *)
Inductive Doc :=
  | NetworkConfigDoc | ClusterNetworkConfigDoc | InstallConfigDoc
  | MachineConfigDoc | ClusterConfigDoc | ControlPlaneConfigDoc.

Class Docs := { Describe : Doc -> string -> bool -> string }.

(** DiskSize partition size in bytes: [type DiskSize uint64]. *)
Definition DiskSize := Z.

(** MarshalYAML write as human readable string. The error it returns is
    always nil. *)
Definition MarshalYAML `{humanize.API} (ds : DiskSize) : result any :=
  if bool_decide (ds mod 1000 = 0) then
    let bytesString := humanize.Bytes ds in
    (* ensure that stringifying bytes as human readable string
       doesn't lose precision *)
    match humanize.ParseBytes bytesString with
    | Ok parsed =>
        if bool_decide (parsed = ds) then Ok (AString bytesString)
        else Ok (AUint64 ds)
    | Err _ => Ok (AUint64 ds)
    end
  else Ok (AUint64 ds).

(** UnmarshalYAML read from human readable string. [unmarshal] is what the
    decoder callback yields when asked for a string; the receiver [ds] is
    updated in place, so the new receiver is returned beside the error. *)
Definition UnmarshalYAML `{humanize.API} (ds : DiskSize) (unmarshal : result string)
    : DiskSize * option error :=
  match unmarshal with
  | Err err => (ds, Some err)
  | Ok size =>
      match humanize.ParseBytes size with
      | Err err => (ds, Some err)
      | Ok s => (s, None)
      end
  end.
(** Endpoint represents the endpoint URL parsed out of the machine config:
    a struct around a pointer to a URL, nil in the zero value. *)
Definition Endpoint `{url.API} : Type := option url.URL.

(** UnmarshalYAML is a custom unmarshaller for `Endpoint`; the receiver is
    updated in place. *)
Definition Endpoint_UnmarshalYAML `{url.API} (e : Endpoint) (unmarshal : result string)
    : Endpoint * option error :=
  match unmarshal with
  | Err err => (e, Some err)
  | Ok endpoint =>
      match url.Parse endpoint with
      | Err err => (e, Some err)
      | Ok u => (Some u, None)
      end
  end.

(** MarshalYAML of an `Endpoint`: [e.URL.String()], which dereferences the
    URL and panics on nil. *)
Definition Endpoint_MarshalYAML `{url.API} (e : Endpoint) : outcome (result any) :=
  match e with
  | Some u => Returns (Ok (AString (url.URL_String u)))
  | None => Panics
  end.

(** FileMode represents file's permissions: [type FileMode os.FileMode],
    32 bits. *)
Definition FileMode := Z.

(** String convert file mode to octal string. *)
Definition FileMode_String (fm : FileMode) : string :=
  "0o" +:+ strconv.FormatUint fm 8.

(** MarshalYAML encodes as an octal value. *)
Definition FileMode_MarshalYAML (fm : FileMode) : result yaml.Node :=
  Ok {| yaml.Node_Kind := yaml.ScalarNode;
        yaml.Node_Tag := "!!int";
        yaml.Node_Value := FileMode_String fm |}.
End v1alpha1.

(** ** internal/pkg/tui/installer *)
Module installer.
(** The pointers NewState hands to its items: each names one field of the
    request, or the state's own [cni]. *)
Inductive Dest :=
  | opts_MachineConfig_InstallConfig_InstallImage
  | opts_MachineConfig_InstallConfig_InstallDisk
  | opts_MachineConfig_Type
  | opts_ClusterConfig_Name
  | opts_ClusterConfig_ControlPlane_Endpoint
  | opts_MachineConfig_KubernetesVersion
  | opts_MachineConfig_NetworkConfig_Hostname
  | opts_ClusterConfig_ClusterNetwork_DnsDomain
  | state_cni.

(** Modelled from the spec: the form item and the page, whose declarations
    are not among the files embedded here. An item is a label, a help text,
    a bound location and the flattened choices (an optional header row, then
    the rows' cells one after the other); a page is a title and its items in
    declaration order. *)
Record Item := {
  Item_Name : string;
  Item_description : string;
  Item_dest : Dest;
  Item_options : list any;
}.

(** Modelled from the spec: [new(label, helpText, boundLocation, choices...)]
    stores its arguments. *)
Definition NewItem (name description : string) (dest : Dest) (options : list any) : Item :=
  {| Item_Name := name; Item_description := description;
     Item_dest := dest; Item_options := options |}.

(** Modelled from the spec: the explicit header row of a choice table. *)
Definition NewTableHeaders (headers : list string) : any := ATableHeaders headers.

(** Modelled from the spec: a page is a title and its items, in
    declaration order. *)
Record Page := {
  Page_name : string;
  Page_items : list Item;
}.

(** Modelled from the spec: [new(title, items...)] groups the items under
    the title. *)
Definition NewPage (name : string) (items : list Item) : Page :=
  {| Page_name := name; Page_items := items |}.

(** Modelled from the spec: the connection, whose declaration is not among
    the files embedded here. It supplies the topology facts, the disk
    inventory and the generate-configuration call. *)
Record Connection := {
  bootstrapEndpoint : string;
  nodeEndpoint : string;
  ExpandingCluster : bool;
  Disks : result storage.Disks;
  GenerateConfiguration :
    machineapi.GenerateConfigurationRequest ->
    result machineapi.GenerateConfigurationResponse;
}.

(** State installer state. *)
Record State := {
  pages : list Page;
  opts : machineapi.GenerateConfigurationRequest;
  conn : Connection;
  cni : string;
}.

(** cniPresets defines custom CNI presets. *)
Definition cniPresets : gmap string machineapi.CNIConfig :=
  {[ "cilium" :=
       {| machineapi.CNIConfig_Name := "custom";
          machineapi.CNIConfig_Urls :=
            ["https://raw.githubusercontent.com/cilium/cilium/v1.8/install/kubernetes/quick-install.yaml"] |} ]}.

(** The body of [for i, disk := range disks.Disks], from index [i] on. *)
Fixpoint range_disks `{humanize.API} (i : nat) (disks : list storage.Disk)
    (opts : machineapi.GenerateConfigurationRequest) (installDiskOptions : list any)
    : machineapi.GenerateConfigurationRequest * list any :=
  match disks with
  | [] => (opts, installDiskOptions)
  | disk :: rest =>
      let opts :=
        if bool_decide (i = 0%nat)
        then machineapi.set_InstallDisk (storage.Disk_DeviceName disk) opts
        else opts in
      let installDiskOptions :=
        installDiskOptions ++
          [AString (storage.Disk_DeviceName disk);
           AString (storage.Disk_Model disk);
           AString (humanize.Bytes (storage.Disk_Size disk))] in
      range_disks (S i) rest opts installDiskOptions
  end.

Section NewState.
Context `{constants.Values, images.Values, humanize.API, v1alpha1.Docs}.

(** NewState creates new installer state. *)
Definition NewState (conn : Connection) : result State :=
  let opts :=
    {| machineapi.ConfigVersion := "v1alpha1";
       machineapi.MachineConfig_ :=
         {| machineapi.MachineConfig_Type := machineapi.MachineType_of machine.TypeInit;
            machineapi.MachineConfig_NetworkConfig :=
              {| machineapi.NetworkConfig_Hostname := EmptyString |};
            machineapi.MachineConfig_KubernetesVersion := constants.DefaultKubernetesVersion;
            machineapi.MachineConfig_InstallConfig :=
              {| machineapi.InstallConfig_InstallImage := images.DefaultInstallerImage;
                 machineapi.InstallConfig_InstallDisk := EmptyString |} |};
       machineapi.ClusterConfig_ :=
         {| machineapi.ClusterConfig_Name := "talos-default";
            machineapi.ClusterConfig_ControlPlane :=
              {| machineapi.ControlPlaneConfig_Endpoint := EmptyString |};
            machineapi.ClusterConfig_ClusterNetwork :=
              {| machineapi.ClusterNetworkConfig_DnsDomain := "cluster.local";
                 machineapi.ClusterNetworkConfig_CniConfig := None |} |} |} in
  let opts :=
    if ExpandingCluster conn
    then machineapi.set_Endpoint
           (fmt.Sprintf "https://%s:%d"
              [fmt.Str (bootstrapEndpoint conn); fmt.Int constants.DefaultControlPlanePort]) opts
    else machineapi.set_Endpoint
           (fmt.Sprintf "https://%s:%d"
              [fmt.Str (nodeEndpoint conn); fmt.Int constants.DefaultControlPlanePort]) opts in
  let installDiskOptions := [NewTableHeaders ["device name"; "model name"; "size"]] in
  match Disks conn with
  | Err err => Err err
  | Ok disks =>
      let '(opts, installDiskOptions) :=
        range_disks 0 (storage.Disks_Disks disks) opts installDiskOptions in
      let '(machineTypes, opts) :=
        if ExpandingCluster conn
        then ([AString "worker"; AMachineType (machineapi.MachineType_of machine.TypeJoin);
               AString "control plane"; AMachineType (machineapi.MachineType_of machine.TypeControlPlane)],
              machineapi.set_Type (machineapi.MachineType_of machine.TypeControlPlane) opts)
        else ([AString "control plane"; AMachineType (machineapi.MachineType_of machine.TypeInit)],
              opts) in
      let networkConfigItems :=
        [ NewItem "hostname"
            (v1alpha1.Describe v1alpha1.NetworkConfigDoc "hostname" true)
            opts_MachineConfig_NetworkConfig_Hostname [];
          NewItem "dns domain"
            (v1alpha1.Describe v1alpha1.ClusterNetworkConfigDoc "dnsDomain" true)
            opts_ClusterConfig_ClusterNetwork_DnsDomain [] ] in
      let networkConfigItems :=
        if negb (ExpandingCluster conn)
        then networkConfigItems ++
               [ NewItem "type"
                   (v1alpha1.Describe v1alpha1.ClusterNetworkConfigDoc "cni" true)
                   state_cni
                   [ NewTableHeaders ["CNI"; "description"];
                     AString constants.DefaultCNI; AString "CNI used by Talos by default";
                     AString "cilium"; AString "Cillium 1.8 installed through quick-install.yaml" ] ]
        else networkConfigItems in
      Ok {| cni := constants.DefaultCNI;
            conn := conn;
            opts := opts;
            pages :=
              [ NewPage "Installer Params"
                  [ NewItem "image"
                      (v1alpha1.Describe v1alpha1.InstallConfigDoc "image" true)
                      opts_MachineConfig_InstallConfig_InstallImage [];
                    NewItem "install disk"
                      (v1alpha1.Describe v1alpha1.InstallConfigDoc "disk" true)
                      opts_MachineConfig_InstallConfig_InstallDisk
                      installDiskOptions ];
                NewPage "Machine Config"
                  [ NewItem "machine type"
                      (v1alpha1.Describe v1alpha1.MachineConfigDoc "type" true)
                      opts_MachineConfig_Type
                      machineTypes;
                    NewItem "cluster name"
                      (v1alpha1.Describe v1alpha1.ClusterConfigDoc "clusterName" true)
                      opts_ClusterConfig_Name [];
                    NewItem "control plane endpoint"
                      (v1alpha1.Describe v1alpha1.ControlPlaneConfigDoc "endpoint" true)
                      opts_ClusterConfig_ControlPlane_Endpoint [];
                    NewItem "kubernetes version"
                      "Kubernetes version to install."
                      opts_MachineConfig_KubernetesVersion [] ];
                NewPage "Network Config" networkConfigItems ] |}
  end.
End NewState.

(** GenConfig returns current config encoded in yaml. The receiver is
    updated in place, so the state after the call is returned beside the
    connection's answer. *)
Definition GenConfig (s : State)
    : State * result machineapi.GenerateConfigurationResponse :=
  (* configure custom cni from the preset *)
  let s :=
    match cniPresets !! cni s with
    | Some customCNI =>
        {| pages := pages s;
           opts := machineapi.set_CniConfig (Some customCNI) (opts s);
           conn := conn s;
           cni := cni s |}
    | None => s
    end in
  (s, GenerateConfiguration (conn s) (opts s)).

(** The request GenConfig hands to the connection. *)
Definition outbound (s : State) : machineapi.GenerateConfigurationRequest :=
  opts (GenConfig s).1.

(** *** Editing through an item's destination *)
Inductive value := VString (s : string) | VMachineType (t : machineapi.MachineConfig_MachineType).

Definition load (s : State) (d : Dest) : value :=
  match d with
  | opts_MachineConfig_InstallConfig_InstallImage => VString (machineapi.InstallImage (opts s))
  | opts_MachineConfig_InstallConfig_InstallDisk => VString (machineapi.InstallDisk (opts s))
  | opts_MachineConfig_Type => VMachineType (machineapi.Type_ (opts s))
  | opts_ClusterConfig_Name => VString (machineapi.Name (opts s))
  | opts_ClusterConfig_ControlPlane_Endpoint => VString (machineapi.Endpoint (opts s))
  | opts_MachineConfig_KubernetesVersion => VString (machineapi.KubernetesVersion (opts s))
  | opts_MachineConfig_NetworkConfig_Hostname => VString (machineapi.Hostname (opts s))
  | opts_ClusterConfig_ClusterNetwork_DnsDomain => VString (machineapi.DnsDomain (opts s))
  | state_cni => VString (cni s)
  end.

Definition with_opts (f : machineapi.GenerateConfigurationRequest -> machineapi.GenerateConfigurationRequest)
    (s : State) : State :=
  {| pages := pages s; opts := f (opts s); conn := conn s; cni := cni s |}.

(** Writing a value of the field's type through the pointer; a value of
    another type cannot be assigned and leaves the state as it is. *)
Definition store (d : Dest) (v : value) (s : State) : State :=
  match d, v with
  | opts_MachineConfig_InstallConfig_InstallImage, VString x => with_opts (machineapi.set_InstallImage x) s
  | opts_MachineConfig_InstallConfig_InstallDisk, VString x => with_opts (machineapi.set_InstallDisk x) s
  | opts_MachineConfig_Type, VMachineType t => with_opts (machineapi.set_Type t) s
  | opts_ClusterConfig_Name, VString x => with_opts (machineapi.set_Name x) s
  | opts_ClusterConfig_ControlPlane_Endpoint, VString x => with_opts (machineapi.set_Endpoint x) s
  | opts_MachineConfig_KubernetesVersion, VString x => with_opts (machineapi.set_KubernetesVersion x) s
  | opts_MachineConfig_NetworkConfig_Hostname, VString x => with_opts (machineapi.set_Hostname x) s
  | opts_ClusterConfig_ClusterNetwork_DnsDomain, VString x => with_opts (machineapi.set_DnsDomain x) s
  | state_cni, VString x => {| pages := pages s; opts := opts s; conn := conn s; cni := x |}
  | _, _ => s
  end.

(** The values a destination accepts: a machine type for the machine-type
    field, a string everywhere else. *)
Definition fits (d : Dest) (v : value) : bool :=
  match d, v with
  | opts_MachineConfig_Type, VMachineType _ => true
  | opts_MachineConfig_Type, VString _ => false
  | _, VString _ => true
  | _, VMachineType _ => false
  end.

(** A wizard session: the edits the user makes, in order. *)
Definition edits (es : list (Dest * value)) (s : State) : State :=
  foldl (fun s e => store e.1 e.2 s) s es.

(** Modelled from the spec: the tabular view of an item's flattened
    choices. With a header row of [w] columns the cells that follow are cut
    into rows of [w]; the header row comes first. *)
Fixpoint cut_rows (fuel w : nat) (cells : list any) : list (list any) :=
  match fuel, cells with
  | _, [] => []
  | O, _ => [cells]
  | S fuel', _ => take w cells :: cut_rows fuel' w (drop w cells)
  end.

Definition table_rows (options : list any) : option (list (list any)) :=
  match options with
  | ATableHeaders headers :: cells =>
      Some (map AString headers :: cut_rows (length cells) (length headers) cells)
  | _ => None
  end.

(** The items of the page titled [title], and the choices of its item
    labelled [name], if the state has them. *)
Definition page_items (title : string) (s : State) : option (list Item) :=
  Page_items <$> find (fun p => String.eqb (Page_name p) title) (pages s).

Definition item_options (title name : string) (s : State) : option (list any) :=
  items ← page_items title s;
  Item_options <$> find (fun i => String.eqb (Item_Name i) name) items.

(** The row shown for one disk. *)
Definition disk_row `{humanize.API} (disk : storage.Disk) : list any :=
  [AString (storage.Disk_DeviceName disk);
   AString (storage.Disk_Model disk);
   AString (humanize.Bytes (storage.Disk_Size disk))].

(** Whether an item offers choices at all. *)
Definition has_choices (i : Item) : bool :=
  match Item_options i with [] => false | _ :: _ => true end.

(** A page as the user meets it: its title and, for every item in order,
    the label, the bound location and whether it offers choices. *)
Definition page_outline (p : Page) : string * list (string * Dest * bool) :=
  (Page_name p, map (fun i => (Item_Name i, Item_dest i, has_choices i)) (Page_items p)).

(** What the disk loop leaves in the request: the first disk's device
    name as install disk when there is a disk, the request as it was
    otherwise. *)
Definition first_disk_default (disks : list storage.Disk)
    (opts : machineapi.GenerateConfigurationRequest) : machineapi.GenerateConfigurationRequest :=
  match disks with
  | [] => opts
  | disk :: _ => machineapi.set_InstallDisk (storage.Disk_DeviceName disk) opts
  end.
(** The locations the items of a state are bound to, page by page. *)
Definition item_dests (s : State) : list Dest :=
  flat_map (fun p => map Item_dest (Page_items p)) (pages s).

(** The first cell of each row after the header: the keys a choice table
    offers. *)
Definition choice_keys (options : list any) : option (list (option any)) :=
  match table_rows options with
  | Some (_ :: rows) => Some (map head rows)
  | _ => None
  end.
End installer.

(** ** Sample surroundings for the examples

    The theorems below hold for every value of the constants, every
    documentation table and every humanize implementation; the examples
    run the code with these. *)
Definition sample_constants : constants.Values :=
  {| constants.DefaultControlPlanePort := 6443;
     constants.DefaultCNI := "flannel";
     constants.DefaultKubernetesVersion := "1.19.3" |}.

Definition sample_images : images.Values :=
  {| images.DefaultInstallerImage := "ghcr.io/talos-systems/installer:latest" |}.

Definition sample_docs : v1alpha1.Docs :=
  {| v1alpha1.Describe := fun _ field _ => field |}.

Definition sda : storage.Disk :=
  {| storage.Disk_Size := 256000000000;
     storage.Disk_Model := "ModelA";
     storage.Disk_DeviceName := "/dev/sda" |}.

Definition sdb : storage.Disk :=
  {| storage.Disk_Size := 82854982;
     storage.Disk_Model := "ModelB";
     storage.Disk_DeviceName := "/dev/sdb" |}.

Definition echo_version (r : machineapi.GenerateConfigurationRequest)
    : result machineapi.GenerateConfigurationResponse :=
  Ok (machineapi.Response [machineapi.ConfigVersion r; machineapi.Endpoint r] EmptyString).

(** A node that bootstraps a new cluster, with one disk. *)
Definition bootstrapping_conn : installer.Connection :=
  {| installer.bootstrapEndpoint := EmptyString;
     installer.nodeEndpoint := "192.168.0.5";
     installer.ExpandingCluster := false;
     installer.Disks := Ok {| storage.Disks_Disks := [sda] |};
     installer.GenerateConfiguration := echo_version |}.

(** A node that joins the cluster bootstrapped at 10.0.0.1, with two disks. *)
Definition expanding_conn : installer.Connection :=
  {| installer.bootstrapEndpoint := "10.0.0.1";
     installer.nodeEndpoint := "10.0.0.7";
     installer.ExpandingCluster := true;
     installer.Disks := Ok {| storage.Disks_Disks := [sda; sdb] |};
     installer.GenerateConfiguration := echo_version |}.

(** A node without disks, and one whose disk inventory cannot be read. *)
Definition diskless_conn : installer.Connection :=
  {| installer.bootstrapEndpoint := EmptyString;
     installer.nodeEndpoint := "192.168.0.5";
     installer.ExpandingCluster := false;
     installer.Disks := Ok {| storage.Disks_Disks := [] |};
     installer.GenerateConfiguration := echo_version |}.

Definition failing_conn : installer.Connection :=
  {| installer.bootstrapEndpoint := EmptyString;
     installer.nodeEndpoint := "192.168.0.5";
     installer.ExpandingCluster := false;
     installer.Disks := Err (errorString "rpc error: code = Unavailable");
     installer.GenerateConfiguration := echo_version |}.

(** A request in which a plugin configuration with a URL of its own is
    already present, and two states over it: one with the preset key
    selected, one with the default plugin. *)
Definition edited_request : machineapi.GenerateConfigurationRequest :=
  {| machineapi.ConfigVersion := "v1alpha1";
     machineapi.MachineConfig_ :=
       {| machineapi.MachineConfig_Type := machineapi.TYPE_INIT;
          machineapi.MachineConfig_InstallConfig :=
            {| machineapi.InstallConfig_InstallDisk := "/dev/sda";
               machineapi.InstallConfig_InstallImage := "ghcr.io/talos-systems/installer:latest" |};
          machineapi.MachineConfig_NetworkConfig :=
            {| machineapi.NetworkConfig_Hostname := "node-1" |};
          machineapi.MachineConfig_KubernetesVersion := "1.19.3" |};
     machineapi.ClusterConfig_ :=
       {| machineapi.ClusterConfig_Name := "talos-default";
          machineapi.ClusterConfig_ControlPlane :=
            {| machineapi.ControlPlaneConfig_Endpoint := "https://192.168.0.5:6443" |};
          machineapi.ClusterConfig_ClusterNetwork :=
            {| machineapi.ClusterNetworkConfig_DnsDomain := "cluster.local";
               machineapi.ClusterNetworkConfig_CniConfig :=
                 Some {| machineapi.CNIConfig_Name := "custom";
                         machineapi.CNIConfig_Urls := ["https://example.org/cni.yaml"] |} |} |} |}.

Definition cilium_state : installer.State :=
  {| installer.pages := [];
     installer.opts := edited_request;
     installer.conn := bootstrapping_conn;
     installer.cni := "cilium" |}.

Definition flannel_state : installer.State :=
  {| installer.pages := [];
     installer.opts := edited_request;
     installer.conn := bootstrapping_conn;
     installer.cni := "flannel" |}.

(** A stand-in for net/url: a URL is its text, and text with a space in
    it does not parse. *)
Definition sample_url : url.API :=
  {| url.URL := string;
     url.Parse := fun s =>
       match String.index 0 " " s with
       | Some _ => Err (errorString "invalid character in URL")
       | None => Ok s
       end;
     url.URL_String := fun u => u |}.

Definition sample_NewState : installer.Connection -> result installer.State :=
  @installer.NewState sample_constants sample_images humanize.exact sample_docs.


(** * Properties of the wizard state *)

Import installer.

Lemma append_nil_r (s : string) : s +:+ EmptyString = s.
Proof.
  induction s as [|c s IH]; [done|].
  change (String c (s +:+ EmptyString) = String c s). by f_equal.
Qed.

(** What the endpoint format yields for a host and a port. *)
Lemma Sprintf_endpoint (host : string) (port : Z) :
  fmt.Sprintf "https://%s:%d" [fmt.Str host; fmt.Int port]
  = "https://" +:+ host +:+ ":" +:+ pretty port.
Proof.
  change (fmt.Sprintf "https://%s:%d" [fmt.Str host; fmt.Int port])
    with ("https://" +:+ host +:+ ":" +:+ pretty port +:+ EmptyString).
  by rewrite append_nil_r.
Qed.

Section Disk_loop.
Context `{humanize.API}.

(** The loop appends one row of three cells per disk, in order. *)
Lemma range_disks_options i disks opts options :
  (range_disks i disks opts options).2 = options ++ flat_map disk_row disks.
Proof.
  revert i opts options.
  induction disks as [|disk rest IH]; intros i opts options; simpl.
  - by rewrite app_nil_r.
  - rewrite IH. by rewrite <- app_assoc.
Qed.

(** Past index 0 the loop no longer touches the request. *)
Lemma range_disks_opts_later i disks opts options :
  (range_disks (S i) disks opts options).1 = opts.
Proof.
  revert i opts options.
  induction disks as [|disk rest IH]; intros i opts options; simpl; [done|].
  by rewrite IH.
Qed.

(** The whole loop, started at index 0 as the source does. *)
Lemma range_disks_0 disks opts options :
  range_disks 0 disks opts options
  = (first_disk_default disks opts, options ++ flat_map disk_row disks).
Proof.
  rewrite (surjective_pairing (range_disks _ _ _ _)), range_disks_options.
  f_equal. destruct disks as [|disk rest]; [done|].
  simpl. by rewrite range_disks_opts_later.
Qed.

(** Cutting the cells of [n] disks into rows of three gives back the rows. *)
Lemma cut_rows_disk_rows (fuel : nat) (disks : list storage.Disk) :
  (length disks <= fuel)%nat ->
  cut_rows fuel 3 (flat_map disk_row disks) = map disk_row disks.
Proof.
  revert fuel.
  induction disks as [|disk rest IH]; intros fuel Hfuel.
  - by destruct fuel.
  - destruct fuel as [|fuel]; simpl in *; [lia|].
    f_equal. apply IH. lia.
Qed.

Lemma length_disk_rows (disks : list storage.Disk) :
  length (flat_map disk_row disks) = (3 * length disks)%nat.
Proof. induction disks as [|disk rest IH]; simpl; lia. Qed.
End Disk_loop.

Section Construction.
Context `{constants.Values, images.Values, humanize.API, v1alpha1.Docs}.

(** C8: whenever the disk inventory can be read, NewState succeeds and the
    request it builds carries the fixed defaults: config-schema version
    "v1alpha1", the default Kubernetes version, the default install image,
    cluster name "talos-default" and DNS domain "cluster.local". *)
Theorem NewState_fixed_defaults (conn : Connection) (disks : storage.Disks) :
  Disks conn = Ok disks ->
  exists s, NewState conn = Ok s
    /\ machineapi.ConfigVersion (opts s) = "v1alpha1"
    /\ machineapi.KubernetesVersion (opts s) = constants.DefaultKubernetesVersion
    /\ machineapi.InstallImage (opts s) = images.DefaultInstallerImage
    /\ machineapi.Name (opts s) = "talos-default"
    /\ machineapi.DnsDomain (opts s) = "cluster.local".
Proof.
  intros Hdisks. unfold NewState. rewrite Hdisks, range_disks_0.
  destruct (ExpandingCluster conn), (storage.Disks_Disks disks);
    (eexists; split; [reflexivity|]); done.
Qed.

(** C2: NewState sets the control-plane endpoint to
    "https://<host>:<DefaultControlPlanePort>", where <host> is the
    bootstrap endpoint when the connection reports an expanding cluster
    and the node's own endpoint otherwise. *)
Theorem NewState_control_plane_endpoint (conn : Connection) (disks : storage.Disks) :
  Disks conn = Ok disks ->
  exists s, NewState conn = Ok s
    /\ machineapi.Endpoint (opts s)
       = "https://"
         +:+ (if ExpandingCluster conn then bootstrapEndpoint conn else nodeEndpoint conn)
         +:+ ":" +:+ pretty constants.DefaultControlPlanePort.
Proof.
  intros Hdisks. unfold NewState. rewrite Hdisks, range_disks_0, !Sprintf_endpoint.
  destruct (ExpandingCluster conn), (storage.Disks_Disks disks);
    (eexists; split; [reflexivity|]); done.
Qed.

(** C3: for a disk list of length N >= 1, NewState makes the first disk's
    device name the install disk, and the choices of the install-disk item
    are the header row ("device name", "model name", "size") followed by
    one (device name, model, humanized size) row per disk in the order the
    connection returned them: N+1 rows. *)
Theorem NewState_install_disk_choices (conn : Connection)
    (disk : storage.Disk) (rest : list storage.Disk) :
  Disks conn = Ok {| storage.Disks_Disks := disk :: rest |} ->
  exists s options rows, NewState conn = Ok s
    /\ machineapi.InstallDisk (opts s) = storage.Disk_DeviceName disk
    /\ item_options "Installer Params" "install disk" s = Some options
    /\ options = NewTableHeaders ["device name"; "model name"; "size"]
                 :: flat_map disk_row (disk :: rest)
    /\ table_rows options = Some rows
    /\ rows = [AString "device name"; AString "model name"; AString "size"]
              :: map disk_row (disk :: rest)
    /\ length rows = S (length (disk :: rest)).
Proof.
  intros Hdisks. unfold NewState. rewrite Hdisks, range_disks_0.
  assert (Hrows : table_rows (NewTableHeaders ["device name"; "model name"; "size"]
                              :: flat_map disk_row (disk :: rest))
                  = Some ([AString "device name"; AString "model name"; AString "size"]
                          :: map disk_row (disk :: rest))).
  { unfold table_rows, NewTableHeaders. do 2 f_equal.
    apply cut_rows_disk_rows. rewrite length_disk_rows. lia. }
  destruct (ExpandingCluster conn);
    (do 3 eexists; split; [reflexivity|]);
    (split; [done|]); (split; [reflexivity|]); (split; [reflexivity|]);
    (split; [exact Hrows|]); (split; [reflexivity|]);
    simpl; by rewrite length_map.
Qed.

(** C9: for an empty disk list NewState still succeeds, the choices of the
    install-disk item are the header row alone, and the request's install
    disk keeps its zero value, the empty string. *)
Theorem NewState_no_disks (conn : Connection) :
  Disks conn = Ok {| storage.Disks_Disks := [] |} ->
  exists s, NewState conn = Ok s
    /\ item_options "Installer Params" "install disk" s
       = Some [NewTableHeaders ["device name"; "model name"; "size"]]
    /\ (item_options "Installer Params" "install disk" s ≫= table_rows)
       = Some [[AString "device name"; AString "model name"; AString "size"]]
    /\ machineapi.InstallDisk (opts s) = EmptyString.
Proof.
  intros Hdisks. unfold NewState. rewrite Hdisks, range_disks_0.
  destruct (ExpandingCluster conn); (eexists; split; [reflexivity|]); done.
Qed.

(** C4: the machine-type choices and default follow the topology mode
    alone: an expanding cluster offers worker and control plane and
    defaults to control plane; a bootstrapping one offers control plane
    only, bound to and defaulting to the init role. *)
Theorem NewState_machine_types (conn : Connection) (disks : storage.Disks) :
  Disks conn = Ok disks ->
  exists s, NewState conn = Ok s
    /\ item_options "Machine Config" "machine type" s
       = Some (if ExpandingCluster conn
               then [AString "worker"; AMachineType machineapi.TYPE_JOIN;
                     AString "control plane"; AMachineType machineapi.TYPE_CONTROL_PLANE]
               else [AString "control plane"; AMachineType machineapi.TYPE_INIT])
    /\ machineapi.Type_ (opts s)
       = (if ExpandingCluster conn then machineapi.TYPE_CONTROL_PLANE
          else machineapi.TYPE_INIT).
Proof.
  intros Hdisks. unfold NewState. rewrite Hdisks, range_disks_0.
  destruct (ExpandingCluster conn), (storage.Disks_Disks disks);
    (eexists; split; [reflexivity|]); done.
Qed.

(** C5: NewState assembles exactly three pages, in the order
    "Installer Params" (image; install disk, with choices),
    "Machine Config" (machine type, with choices; cluster name; control
    plane endpoint; kubernetes version), "Network Config" (hostname; dns
    domain); the network-plugin item, bound to the state's cni key and
    with choices, closes the "Network Config" page exactly when the
    cluster is not expanding. *)
Theorem NewState_pages (conn : Connection) (disks : storage.Disks) :
  Disks conn = Ok disks ->
  exists s, NewState conn = Ok s
    /\ map page_outline (pages s)
       = [ ("Installer Params",
            [ ("image", opts_MachineConfig_InstallConfig_InstallImage, false);
              ("install disk", opts_MachineConfig_InstallConfig_InstallDisk, true) ]);
           ("Machine Config",
            [ ("machine type", opts_MachineConfig_Type, true);
              ("cluster name", opts_ClusterConfig_Name, false);
              ("control plane endpoint", opts_ClusterConfig_ControlPlane_Endpoint, false);
              ("kubernetes version", opts_MachineConfig_KubernetesVersion, false) ]);
           ("Network Config",
            [ ("hostname", opts_MachineConfig_NetworkConfig_Hostname, false);
              ("dns domain", opts_ClusterConfig_ClusterNetwork_DnsDomain, false) ]
            ++ (if ExpandingCluster conn then [] else [("type", state_cni, true)])) ]
    /\ ((exists items item, page_items "Network Config" s = Some items
                            /\ item ∈ items /\ Item_dest item = state_cni)
        <-> ExpandingCluster conn = false).
Proof.
  intros Hdisks. unfold NewState. rewrite Hdisks, range_disks_0.
  destruct (ExpandingCluster conn); (eexists; split; [reflexivity|]); (split; [done|]).
  - split; [|done]. intros (items & item & Hitems & Hin & Hdest).
    cbn in Hitems. injection Hitems as <-.
    rewrite !elem_of_cons in Hin. rewrite elem_of_nil in Hin.
    destruct Hin as [-> | [-> | []]]; discriminate Hdest.
  - split; [done|]. intros _. do 2 eexists. split; [reflexivity|].
    split.
    + simpl. rewrite !elem_of_cons. right. right. left. reflexivity.
    + reflexivity.
Qed.

(** C6: when the disk-inventory query fails, NewState fails with that very
    error; the result carries no state. *)
Theorem NewState_disks_error (conn : Connection) (err : error) :
  Disks conn = Err err ->
  NewState conn = Err err.
Proof. intros Hdisks. unfold NewState. by rewrite Hdisks. Qed.

(** NewState fails only that way: it returns a state exactly when the
    inventory query succeeds. *)
Lemma NewState_Ok_iff (conn : Connection) :
  (exists s, NewState conn = Ok s) <-> (exists disks, Disks conn = Ok disks).
Proof.
  unfold NewState. split.
  - intros [s Hs]. destruct (Disks conn) as [disks|err]; [by eexists | done].
  - intros [disks ->]. rewrite range_disks_0.
    destruct (ExpandingCluster conn); by eexists.
Qed.

(** A fresh state selects the default CNI and carries no network-plugin
    configuration. *)
Lemma NewState_cni (conn : Connection) (s : State) :
  NewState conn = Ok s ->
  cni s = constants.DefaultCNI /\ machineapi.CniConfig (opts s) = None /\ installer.conn s = conn.
Proof.
  unfold NewState. destruct (Disks conn) as [disks|err]; [|done].
  rewrite range_disks_0.
  destruct (ExpandingCluster conn), (storage.Disks_Disks disks);
    intros [= <-]; done.
Qed.
End Construction.

(** * Properties of finalize *)

Section Finalize.

(** "cilium" is the one key of the preset table. *)
Lemma cniPresets_lookup (key : string) (preset : machineapi.CNIConfig) :
  cniPresets !! key = Some preset <->
  key = "cilium"
  /\ preset = {| machineapi.CNIConfig_Name := "custom";
                 machineapi.CNIConfig_Urls :=
                   ["https://raw.githubusercontent.com/cilium/cilium/v1.8/install/kubernetes/quick-install.yaml"] |}.
Proof.
  unfold cniPresets. rewrite lookup_singleton_Some.
  split; intros [<- <-]; done.
Qed.

Lemma cniPresets_lookup_None (key : string) :
  cniPresets !! key = None <-> key <> "cilium".
Proof.
  unfold cniPresets. rewrite lookup_singleton_None.
  split; intros Hne Heq; by apply Hne.
Qed.

(** The request handed to the connection, by cases on the table lookup. *)
Lemma outbound_eq (s : State) :
  outbound s
  = match cniPresets !! cni s with
    | Some customCNI => machineapi.set_CniConfig (Some customCNI) (opts s)
    | None => opts s
    end.
Proof. unfold outbound, GenConfig. by destruct (cniPresets !! cni s). Qed.

(** GenConfig always answers with what the connection answers for the
    request it was handed. *)
Lemma GenConfig_delegates (s : State) :
  (GenConfig s).2 = GenerateConfiguration (conn s) (outbound s)
  /\ conn (GenConfig s).1 = conn s /\ cni (GenConfig s).1 = cni s
  /\ pages (GenConfig s).1 = pages s.
Proof. unfold outbound, GenConfig. by destruct (cniPresets !! cni s). Qed.

(** C1: when the selected network-plugin key is a preset key (which makes
    it "cilium"), GenConfig hands the connection a request whose
    network-plugin configuration is the preset, name "custom" with the
    cilium quick-install URL, whatever the request held there before; the
    rest of the request is as it was. *)
Theorem GenConfig_known_preset (s : State) (preset : machineapi.CNIConfig) :
  cniPresets !! cni s = Some preset ->
  cni s = "cilium"
  /\ machineapi.CniConfig (outbound s)
     = Some {| machineapi.CNIConfig_Name := "custom";
               machineapi.CNIConfig_Urls :=
                 ["https://raw.githubusercontent.com/cilium/cilium/v1.8/install/kubernetes/quick-install.yaml"] |}
  /\ outbound s = machineapi.set_CniConfig (Some preset) (opts s)
  /\ (GenConfig s).2 = GenerateConfiguration (conn s) (outbound s).
Proof.
  intros Hpreset. pose proof Hpreset as [Hkey ->]%cniPresets_lookup.
  split; [done|]. unfold outbound, GenConfig. by rewrite Hpreset.
Qed.

(** C7: when the selected network-plugin key is not in the preset table,
    as is the case for "flannel", GenConfig leaves the state and with it
    the request's network-plugin configuration as they were, and returns
    the connection's response or error for that request as it is. *)
Theorem GenConfig_no_preset (s : State) :
  cniPresets !! cni s = None ->
  cniPresets !! "flannel" = None
  /\ GenConfig s = (s, GenerateConfiguration (conn s) (opts s))
  /\ outbound s = opts s
  /\ machineapi.CniConfig (outbound s) = machineapi.CniConfig (opts s).
Proof.
  intros Hnone. split; [by apply cniPresets_lookup_None|].
  unfold outbound, GenConfig. by rewrite Hnone.
Qed.

(** Editing through an item never reaches the network-plugin
    configuration: no item is bound to it. *)
Lemma store_CniConfig (d : Dest) (v : value) (s : State) :
  machineapi.CniConfig (opts (store d v s)) = machineapi.CniConfig (opts s).
Proof. by destruct d, v. Qed.

Lemma edits_CniConfig (es : list (Dest * value)) (s : State) :
  machineapi.CniConfig (opts (edits es s)) = machineapi.CniConfig (opts s).
Proof.
  revert s. induction es as [|[d v] es IH]; intros s; [done|].
  unfold edits in *. simpl. by rewrite IH, store_CniConfig.
Qed.

(** What is written through a destination is what is read back. *)
Lemma load_store (d : Dest) (v : value) (s : State) :
  fits d v = true -> load (store d v s) d = v.
Proof. by destruct d, v. Qed.

(** A value of the wrong type changes nothing. *)
Lemma store_misfit (d : Dest) (v : value) (s : State) :
  fits d v = false -> store d v s = s.
Proof. by destruct d, v. Qed.
End Finalize.

Section Session.
Context `{constants.Values, images.Values, humanize.API, v1alpha1.Docs}.

(** A whole session: a state made by NewState, edited through its items,
    then finalized. The request carries a network-plugin configuration
    exactly when the key selected at the end is the preset key. *)
Lemma session_CniConfig (c : Connection) (s0 : State) (es : list (Dest * value)) :
  NewState c = Ok s0 ->
  machineapi.CniConfig (outbound (edits es s0))
  = cniPresets !! cni (edits es s0).
Proof.
  intros Hnew. rewrite outbound_eq.
  destruct (cniPresets !! cni (edits es s0)) as [preset|]; [done|].
  rewrite edits_CniConfig. by apply NewState_cni in Hnew as (_ & ? & _).
Qed.
End Session.

(** * Properties of the DiskSize codec *)

Section DiskSize.
Context `{humanize.API}.

(** MarshalYAML never fails, and emits either the humanized string or the
    number itself. *)
Lemma MarshalYAML_cases (ds : v1alpha1.DiskSize) :
  v1alpha1.MarshalYAML ds = Ok (AString (humanize.Bytes ds))
  \/ v1alpha1.MarshalYAML ds = Ok (AUint64 ds).
Proof.
  unfold v1alpha1.MarshalYAML.
  repeat (case_bool_decide || case_match); auto.
Qed.

(** A size that is not a multiple of 1000 is written as a number. *)
Lemma MarshalYAML_not_round (ds : v1alpha1.DiskSize) :
  ds mod 1000 <> 0 -> v1alpha1.MarshalYAML ds = Ok (AUint64 ds).
Proof. intros Hmod. unfold v1alpha1.MarshalYAML. by rewrite bool_decide_eq_false_2. Qed.

(** C10: whenever MarshalYAML emits the human-readable string, that string
    is the humanized size, parsing it back as bytes yields the original
    value, and so does UnmarshalYAML on it, whatever the receiver held. *)
Theorem MarshalYAML_string_roundtrip (ds : v1alpha1.DiskSize) (bytesString : string) :
  v1alpha1.MarshalYAML ds = Ok (AString bytesString) ->
  bytesString = humanize.Bytes ds
  /\ humanize.ParseBytes bytesString = Ok ds
  /\ forall ds0, v1alpha1.UnmarshalYAML ds0 (Ok bytesString) = (ds, None).
Proof.
  unfold v1alpha1.MarshalYAML, v1alpha1.UnmarshalYAML.
  case_bool_decide as Hmod; [|done].
  destruct (humanize.ParseBytes (humanize.Bytes ds)) as [parsed|err] eqn:Hparse; [|done].
  case_bool_decide as Hsame; [|done].
  intros [= <-]. subst parsed. by rewrite Hparse.
Qed.
End DiskSize.

(** * The theorems at work on the sample connections *)

Lemma NewState_fixed_defaults_witness :
  Disks bootstrapping_conn = Ok {| storage.Disks_Disks := [sda] |}
  /\ exists s, sample_NewState bootstrapping_conn = Ok s
       /\ machineapi.ConfigVersion (opts s) = "v1alpha1"
       /\ machineapi.KubernetesVersion (opts s) = "1.19.3"
       /\ machineapi.InstallImage (opts s) = "ghcr.io/talos-systems/installer:latest"
       /\ machineapi.Name (opts s) = "talos-default"
       /\ machineapi.DnsDomain (opts s) = "cluster.local".
Proof.
  split; [reflexivity|].
  apply (@NewState_fixed_defaults sample_constants sample_images humanize.exact sample_docs
           bootstrapping_conn {| storage.Disks_Disks := [sda] |}).
  reflexivity.
Defined.

Lemma NewState_control_plane_endpoint_witness :
  Disks expanding_conn = Ok {| storage.Disks_Disks := [sda; sdb] |}
  /\ exists s, sample_NewState expanding_conn = Ok s
       /\ machineapi.Endpoint (opts s) = "https://10.0.0.1:6443".
Proof.
  split; [reflexivity|].
  apply (@NewState_control_plane_endpoint sample_constants sample_images humanize.exact
           sample_docs expanding_conn {| storage.Disks_Disks := [sda; sdb] |}).
  reflexivity.
Defined.

Lemma NewState_install_disk_choices_witness :
  Disks expanding_conn = Ok {| storage.Disks_Disks := [sda; sdb] |}
  /\ exists s options rows, sample_NewState expanding_conn = Ok s
       /\ machineapi.InstallDisk (opts s) = "/dev/sda"
       /\ item_options "Installer Params" "install disk" s = Some options
       /\ options = [ATableHeaders ["device name"; "model name"; "size"];
                     AString "/dev/sda"; AString "ModelA"; AString "256 GB";
                     AString "/dev/sdb"; AString "ModelB"; AString "83 MB"]
       /\ table_rows options = Some rows
       /\ rows = [[AString "device name"; AString "model name"; AString "size"];
                  [AString "/dev/sda"; AString "ModelA"; AString "256 GB"];
                  [AString "/dev/sdb"; AString "ModelB"; AString "83 MB"]]
       /\ length rows = 3%nat.
Proof.
  split; [reflexivity|].
  apply (@NewState_install_disk_choices sample_constants sample_images humanize.exact
           sample_docs expanding_conn sda [sdb]).
  reflexivity.
Defined.

Lemma NewState_no_disks_witness :
  Disks diskless_conn = Ok {| storage.Disks_Disks := [] |}
  /\ exists s, sample_NewState diskless_conn = Ok s
       /\ item_options "Installer Params" "install disk" s
          = Some [ATableHeaders ["device name"; "model name"; "size"]]
       /\ (item_options "Installer Params" "install disk" s ≫= table_rows)
          = Some [[AString "device name"; AString "model name"; AString "size"]]
       /\ machineapi.InstallDisk (opts s) = EmptyString.
Proof.
  split; [reflexivity|].
  apply (@NewState_no_disks sample_constants sample_images humanize.exact sample_docs
           diskless_conn).
  reflexivity.
Defined.

Lemma NewState_machine_types_witness :
  Disks expanding_conn = Ok {| storage.Disks_Disks := [sda; sdb] |}
  /\ exists s, sample_NewState expanding_conn = Ok s
       /\ item_options "Machine Config" "machine type" s
          = Some [AString "worker"; AMachineType machineapi.TYPE_JOIN;
                  AString "control plane"; AMachineType machineapi.TYPE_CONTROL_PLANE]
       /\ machineapi.Type_ (opts s) = machineapi.TYPE_CONTROL_PLANE.
Proof.
  split; [reflexivity|].
  apply (@NewState_machine_types sample_constants sample_images humanize.exact sample_docs
           expanding_conn {| storage.Disks_Disks := [sda; sdb] |}).
  reflexivity.
Defined.

Lemma NewState_pages_witness :
  Disks bootstrapping_conn = Ok {| storage.Disks_Disks := [sda] |}
  /\ exists s, sample_NewState bootstrapping_conn = Ok s
       /\ map page_outline (pages s)
          = [ ("Installer Params",
               [ ("image", opts_MachineConfig_InstallConfig_InstallImage, false);
                 ("install disk", opts_MachineConfig_InstallConfig_InstallDisk, true) ]);
              ("Machine Config",
               [ ("machine type", opts_MachineConfig_Type, true);
                 ("cluster name", opts_ClusterConfig_Name, false);
                 ("control plane endpoint", opts_ClusterConfig_ControlPlane_Endpoint, false);
                 ("kubernetes version", opts_MachineConfig_KubernetesVersion, false) ]);
              ("Network Config",
               [ ("hostname", opts_MachineConfig_NetworkConfig_Hostname, false);
                 ("dns domain", opts_ClusterConfig_ClusterNetwork_DnsDomain, false);
                 ("type", state_cni, true) ]) ]
       /\ ((exists items item, page_items "Network Config" s = Some items
                               /\ item ∈ items /\ Item_dest item = state_cni)
           <-> false = false).
Proof.
  split; [reflexivity|].
  apply (@NewState_pages sample_constants sample_images humanize.exact sample_docs
           bootstrapping_conn {| storage.Disks_Disks := [sda] |}).
  reflexivity.
Defined.

Lemma NewState_disks_error_witness :
  Disks failing_conn = Err (errorString "rpc error: code = Unavailable")
  /\ sample_NewState failing_conn = Err (errorString "rpc error: code = Unavailable").
Proof.
  split; [reflexivity|].
  apply (@NewState_disks_error sample_constants sample_images humanize.exact sample_docs
           failing_conn).
  reflexivity.
Defined.

Lemma GenConfig_known_preset_witness :
  machineapi.CniConfig (opts cilium_state)
  = Some {| machineapi.CNIConfig_Name := "custom";
            machineapi.CNIConfig_Urls := ["https://example.org/cni.yaml"] |}
  /\ cni cilium_state = "cilium"
  /\ machineapi.CniConfig (outbound cilium_state)
     = Some {| machineapi.CNIConfig_Name := "custom";
               machineapi.CNIConfig_Urls :=
                 ["https://raw.githubusercontent.com/cilium/cilium/v1.8/install/kubernetes/quick-install.yaml"] |}
  /\ outbound cilium_state
     = machineapi.set_CniConfig
         (Some {| machineapi.CNIConfig_Name := "custom";
                  machineapi.CNIConfig_Urls :=
                    ["https://raw.githubusercontent.com/cilium/cilium/v1.8/install/kubernetes/quick-install.yaml"] |})
         (opts cilium_state)
  /\ (GenConfig cilium_state).2
     = GenerateConfiguration (conn cilium_state) (outbound cilium_state).
Proof.
  split; [reflexivity|].
  apply (GenConfig_known_preset cilium_state).
  reflexivity.
Defined.

Lemma GenConfig_no_preset_witness :
  cniPresets !! cni flannel_state = None
  /\ cniPresets !! "flannel" = None
  /\ GenConfig flannel_state
     = (flannel_state, GenerateConfiguration (conn flannel_state) (opts flannel_state))
  /\ outbound flannel_state = opts flannel_state
  /\ machineapi.CniConfig (outbound flannel_state)
     = machineapi.CniConfig (opts flannel_state).
Proof.
  split; [reflexivity|].
  apply (GenConfig_no_preset flannel_state).
  reflexivity.
Defined.

Lemma MarshalYAML_string_roundtrip_witness :
  @v1alpha1.MarshalYAML humanize.exact 256000000000 = Ok (AString "256 GB")
  /\ "256 GB" = humanize.exact_Bytes 256000000000
  /\ humanize.exact_ParseBytes "256 GB" = Ok 256000000000
  /\ forall ds0, @v1alpha1.UnmarshalYAML humanize.exact ds0 (Ok "256 GB")
                 = (256000000000, None).
Proof.
  split; [vm_compute; reflexivity|].
  apply (@MarshalYAML_string_roundtrip humanize.exact 256000000000 "256 GB").
  vm_compute; reflexivity.
Defined.

(** The two end-to-end scenarios. Bootstrapping with the single disk
    /dev/sda and the preset "cilium" selected before finalize: *)
Example scenario_bootstrap_cilium :
  exists s, sample_NewState bootstrapping_conn = Ok s
    /\ let req := outbound (store state_cni (VString "cilium") s) in
       machineapi.Type_ req = machineapi.TYPE_INIT
       /\ machineapi.InstallDisk req = "/dev/sda"
       /\ machineapi.CniConfig req
          = Some {| machineapi.CNIConfig_Name := "custom";
                    machineapi.CNIConfig_Urls :=
                      ["https://raw.githubusercontent.com/cilium/cilium/v1.8/install/kubernetes/quick-install.yaml"] |}.
Proof. eexists. split; [reflexivity|]. vm_compute. done. Qed.

(** Expanding the cluster bootstrapped at 10.0.0.1, machine type left at
    its default: *)
Example scenario_expand :
  exists s, sample_NewState expanding_conn = Ok s
    /\ machineapi.Endpoint (outbound s) = "https://10.0.0.1:6443"
    /\ machineapi.Type_ (outbound s) = machineapi.TYPE_CONTROL_PLANE
    /\ machineapi.CniConfig (outbound s) = None
    /\ (GenConfig s).2 = Ok (machineapi.Response ["v1alpha1"; "https://10.0.0.1:6443"] EmptyString).
Proof. eexists. split; [reflexivity|]. vm_compute. done. Qed.

(** The sizes of the schema's own examples: 100000000 is written "100 MB";
    1024 * 1024 * 1024 stays a number, and so does a multiple of 1000 whose
    humanized form rounds. *)
Example MarshalYAML_examples :
  @v1alpha1.MarshalYAML humanize.exact 100000000 = Ok (AString "100 MB")
  /\ @v1alpha1.MarshalYAML humanize.exact (1024 * 1024 * 1024) = Ok (AUint64 1073741824)
  /\ @v1alpha1.MarshalYAML humanize.exact 82854000 = Ok (AUint64 82854000)
  /\ humanize.exact_Bytes 82854000 = "83 MB"
  /\ humanize.exact_ParseBytes "83 MB" = Ok 83000000.
Proof. vm_compute. done. Qed.

Example Sprintf_examples :
  fmt.Sprintf "https://%s:%d" [fmt.Str "10.0.0.1"; fmt.Int 6443] = "https://10.0.0.1:6443"
  /\ fmt.Sprintf "%d B" [fmt.Int 7] = "7 B".
Proof. vm_compute. done. Qed.


(** * Further properties of the wizard state *)

Section Construction_more.
Context `{constants.Values, images.Values, humanize.API, v1alpha1.Docs}.

(** The bound locations of a fresh state's items: the eight request fields,
    and the cni key when the cluster is not expanding. *)
Lemma NewState_item_dests (c : Connection) (s : State) :
  NewState c = Ok s ->
  item_dests s
  = [ opts_MachineConfig_InstallConfig_InstallImage;
      opts_MachineConfig_InstallConfig_InstallDisk;
      opts_MachineConfig_Type;
      opts_ClusterConfig_Name;
      opts_ClusterConfig_ControlPlane_Endpoint;
      opts_MachineConfig_KubernetesVersion;
      opts_MachineConfig_NetworkConfig_Hostname;
      opts_ClusterConfig_ClusterNetwork_DnsDomain ]
    ++ (if ExpandingCluster c then [] else [state_cni]).
Proof.
  unfold NewState. destruct (Disks c) as [disks|err]; [|done].
  rewrite range_disks_0.
  destruct (ExpandingCluster c); intros [= <-]; reflexivity.
Qed.



(** X3: when the cluster is not expanding, the keys the network-plugin
    item offers are the default CNI followed by exactly the keys of the
    preset table, under the headers "CNI" and "description". *)
Theorem NewState_cni_choices (c : Connection) (disks : storage.Disks) :
  Disks c = Ok disks ->
  ExpandingCluster c = false ->
  exists s options, NewState c = Ok s
    /\ item_options "Network Config" "type" s = Some options
    /\ head options = Some (NewTableHeaders ["CNI"; "description"])
    /\ choice_keys options
       = Some (map (fun key => Some (AString key))
                   (constants.DefaultCNI :: (map_to_list cniPresets).*1)).
Proof.
  intros Hdisks Hmode. unfold NewState. rewrite Hdisks, range_disks_0, Hmode.
  do 2 eexists. split; [reflexivity|]. split; [reflexivity|]. split; [reflexivity|].
  unfold cniPresets. rewrite map_to_list_singleton. reflexivity.
Qed.
End Construction_more.

(** * Further properties of finalize *)

Section Finalize_more.

(** X4: GenConfig changes nothing but the network-plugin configuration:
    the config version, the machine configuration, the cluster name, the
    control plane and the DNS domain go out as they are in the state, and
    the state keeps its pages, its connection and its selected key. *)
Theorem GenConfig_frame (s : State) :
  machineapi.ConfigVersion (outbound s) = machineapi.ConfigVersion (opts s)
  /\ machineapi.MachineConfig_ (outbound s) = machineapi.MachineConfig_ (opts s)
  /\ machineapi.Name (outbound s) = machineapi.Name (opts s)
  /\ machineapi.ClusterConfig_ControlPlane (machineapi.ClusterConfig_ (outbound s))
     = machineapi.ClusterConfig_ControlPlane (machineapi.ClusterConfig_ (opts s))
  /\ machineapi.DnsDomain (outbound s) = machineapi.DnsDomain (opts s)
  /\ pages (GenConfig s).1 = pages s
  /\ conn (GenConfig s).1 = conn s
  /\ cni (GenConfig s).1 = cni s.
Proof. unfold outbound, GenConfig. by destruct (cniPresets !! cni s). Qed.


Lemma store_conn (d : Dest) (v : value) (s : State) : conn (store d v s) = conn s.
Proof. by destruct d, v. Qed.

Lemma edits_conn (es : list (Dest * value)) (s : State) : conn (edits es s) = conn s.
Proof.
  revert s. induction es as [|[d v] es IH]; intros s; [done|].
  unfold edits in *. simpl. by rewrite IH, store_conn.
Qed.

(** Only the item bound to the cni key changes it. *)
Lemma store_cni (d : Dest) (v : value) (s : State) :
  d <> state_cni -> cni (store d v s) = cni s.
Proof. by destruct d, v. Qed.

Lemma edits_cni (es : list (Dest * value)) (s : State) :
  Forall (fun e => e.1 <> state_cni) es -> cni (edits es s) = cni s.
Proof.
  revert s. induction es as [|[d v] es IH]; intros s Hes; [done|].
  apply Forall_cons in Hes as [Hd Hes].
  unfold edits in *. simpl. by rewrite IH, store_cni.
Qed.
End Finalize_more.

Section Session_more.
Context `{constants.Values, images.Values, humanize.API, v1alpha1.Docs}.

(** X6: a whole session. For a state made by NewState and then edited
    through destinations in any way, GenConfig calls the connection the
    state was made from, and the request carries a network-plugin
    configuration exactly when the key selected at the end is in the
    preset table: then it is that preset. *)
Theorem session_finalize (c : Connection) (disks : storage.Disks) :
  Disks c = Ok disks ->
  exists s0, NewState c = Ok s0
    /\ forall es : list (Dest * value),
         (GenConfig (edits es s0)).2
         = GenerateConfiguration c (outbound (edits es s0))
         /\ machineapi.CniConfig (outbound (edits es s0))
            = cniPresets !! cni (edits es s0).
Proof.
  intros Hdisks.
  destruct (proj2 (NewState_Ok_iff c) (ex_intro _ disks Hdisks)) as [s0 Hnew].
  exists s0. split; [done|]. intros es.
  destruct (NewState_cni c s0 Hnew) as (_ & Hnil & Hconn). split.
  - destruct (GenConfig_delegates (edits es s0)) as (-> & _).
    by rewrite edits_conn, Hconn.
  - rewrite outbound_eq.
    destruct (cniPresets !! cni (edits es s0)); [done|].
    by rewrite edits_CniConfig.
Qed.

(** X7: when the cluster is expanding, no item is bound to the cni key, so
    whatever is edited through the items of the pages, the key stays the
    default CNI and the request's network-plugin configuration is what the
    preset table holds for the default CNI. *)
Theorem session_expanding_cni (c : Connection) (disks : storage.Disks) :
  Disks c = Ok disks ->
  ExpandingCluster c = true ->
  exists s0, NewState c = Ok s0
    /\ forall es : list (Dest * value),
         Forall (fun e => e.1 ∈ item_dests s0) es ->
         cni (edits es s0) = constants.DefaultCNI
         /\ machineapi.CniConfig (outbound (edits es s0))
            = cniPresets !! constants.DefaultCNI.
Proof.
  intros Hdisks Hmode.
  destruct (proj2 (NewState_Ok_iff c) (ex_intro _ disks Hdisks)) as [s0 Hnew].
  exists s0. split; [done|]. intros es Hes.
  destruct (NewState_cni c s0 Hnew) as (Hkey & Hnil & _).
  assert (Hstay : cni (edits es s0) = constants.DefaultCNI).
  { rewrite edits_cni; [done|].
    eapply Forall_impl; [exact Hes|]. intros [d v] Hd Heq. simpl in Hd, Heq. subst d.
    rewrite (NewState_item_dests c s0 Hnew), Hmode, app_nil_r in Hd.
    rewrite !elem_of_cons, elem_of_nil in Hd.
    repeat (destruct Hd as [Hd|Hd]; [discriminate Hd|]). done. }
  split; [done|]. rewrite outbound_eq, Hstay.
  destruct (cniPresets !! constants.DefaultCNI); [done|].
  by rewrite edits_CniConfig.
Qed.
End Session_more.

(** * Further properties of the schema's codecs *)

Section DiskSize_more.
Context `{humanize.API}.

(** X8: MarshalYAML never fails. It writes the humanized string exactly
    when the size is a multiple of 1000 whose humanized string parses back
    to the size, and the size itself as a number in every other case. *)
Theorem MarshalYAML_outcome (ds : v1alpha1.DiskSize) :
  (forall s, v1alpha1.MarshalYAML ds = Ok (AString s)
             <-> ds mod 1000 = 0 /\ s = humanize.Bytes ds
                 /\ humanize.ParseBytes (humanize.Bytes ds) = Ok ds)
  /\ (forall n, v1alpha1.MarshalYAML ds = Ok (AUint64 n)
                <-> n = ds /\ ~ (ds mod 1000 = 0
                                 /\ humanize.ParseBytes (humanize.Bytes ds) = Ok ds))
  /\ (forall err, v1alpha1.MarshalYAML ds <> Err err).
Proof.
  unfold v1alpha1.MarshalYAML.
  case_bool_decide as Hmod;
    [destruct (humanize.ParseBytes (humanize.Bytes ds)) as [parsed|perr] eqn:Hparse;
       [case_bool_decide as Hsame|]|];
    (split; [|split]); intros x; try done;
    (split; [intros [= <-] | intros Hx]); try tauto; try done.
  - subst parsed. tauto.
  - by destruct Hx as (_ & -> & _).
  - subst parsed. tauto.
  - destruct Hx as (_ & _ & [= ?]). done.
  - split; [done|]. intros (_ & [= ?]). done.
  - by destruct Hx as [-> _].
  - by destruct Hx as (_ & _ & ?).
  - split; [done|]. by intros (_ & ?).
  - by destruct Hx as [-> _].
  - by destruct Hx as [-> _].
Qed.

(** The size can be read off what MarshalYAML writes. *)
Lemma MarshalYAML_reads_back (ds : v1alpha1.DiskSize) :
  match v1alpha1.MarshalYAML ds with
  | Ok (AString s) => humanize.ParseBytes s = Ok ds
  | Ok (AUint64 n) => n = ds
  | _ => False
  end.
Proof.
  unfold v1alpha1.MarshalYAML.
  case_bool_decide; [|done].
  destruct (humanize.ParseBytes (humanize.Bytes ds)) as [parsed|perr] eqn:Hparse; [|done].
  case_bool_decide; [|done]. by subst parsed.
Qed.

(** X9: MarshalYAML writes two different sizes differently, whatever the
    humanize implementation rounds to. *)
Theorem MarshalYAML_distinct (ds1 ds2 : v1alpha1.DiskSize) :
  ds1 <> ds2 -> v1alpha1.MarshalYAML ds1 <> v1alpha1.MarshalYAML ds2.
Proof.
  intros Hne Heq.
  pose proof (MarshalYAML_reads_back ds1) as H1.
  pose proof (MarshalYAML_reads_back ds2) as H2.
  rewrite Heq in H1.
  destruct (v1alpha1.MarshalYAML ds2) as [[s|n|t|h]|err]; try done.
  - rewrite H1 in H2. by injection H2.
  - by subst.
Qed.

(** X10: UnmarshalYAML either succeeds, and then the decoder yielded a
    string that ParseBytes accepts and the receiver holds the parsed
    size, or fails, and then the receiver is as it was and the error is
    the decoder's or ParseBytes's own. *)
Theorem UnmarshalYAML_outcome (ds : v1alpha1.DiskSize) (unmarshal : result string) :
  match v1alpha1.UnmarshalYAML ds unmarshal with
  | (ds', None) =>
      exists size, unmarshal = Ok size /\ humanize.ParseBytes size = Ok ds'
  | (ds', Some err) =>
      ds' = ds
      /\ (unmarshal = Err err
          \/ exists size, unmarshal = Ok size /\ humanize.ParseBytes size = Err err)
  end.
Proof.
  unfold v1alpha1.UnmarshalYAML. destruct unmarshal as [size|err]; [|auto].
  destruct (humanize.ParseBytes size) as [parsed|err] eqn:Hparse; eauto.
Qed.
End DiskSize_more.

Section Endpoint_more.
Context `{url.API}.

(** X11: Endpoint.UnmarshalYAML either succeeds, and then the receiver
    holds the URL parsed from the decoded string and MarshalYAML on it
    returns that URL's string without panicking, or fails, and then the
    receiver is as it was and the error is the decoder's or url.Parse's
    own. MarshalYAML on an endpoint that was never set panics. *)
Theorem Endpoint_UnmarshalYAML_outcome (e : v1alpha1.Endpoint) (unmarshal : result string) :
  match v1alpha1.Endpoint_UnmarshalYAML e unmarshal with
  | (e', None) =>
      exists endpoint u, unmarshal = Ok endpoint /\ url.Parse endpoint = Ok u
        /\ e' = Some u
        /\ v1alpha1.Endpoint_MarshalYAML e' = Returns (Ok (AString (url.URL_String u)))
  | (e', Some err) =>
      e' = e
      /\ (unmarshal = Err err
          \/ exists endpoint, unmarshal = Ok endpoint /\ url.Parse endpoint = Err err)
  end
  /\ v1alpha1.Endpoint_MarshalYAML None = Panics.
Proof.
  split; [|done].
  unfold v1alpha1.Endpoint_UnmarshalYAML. destruct unmarshal as [endpoint|err]; [|auto].
  destruct (url.Parse endpoint) as [u|err] eqn:Hparse; [|eauto].
  exists endpoint, u. done.
Qed.
End Endpoint_more.

Section FileMode_more.

Lemma octal_val_digit (d : Z) :
  0 <= d < 8 -> strconv.octal_val (strconv.digit d) = Some d.
Proof.
  intros Hd.
  assert (d = 0 \/ d = 1 \/ d = 2 \/ d = 3 \/ d = 4 \/ d = 5 \/ d = 6 \/ d = 7)
    as Hcases by lia.
  repeat (destruct Hcases as [-> | Hcases]; [reflexivity|]). by subst.
Qed.

(** Reading back what the loop wrote in front of [a] continues from [u]. *)
Lemma formatBits_parse (fuel : nat) (u : Z) (a : string) :
  0 <= u < 8 ^ Z.of_nat fuel ->
  strconv.parse_octal_from 0 (strconv.formatBits fuel u 3 a)
  = strconv.parse_octal_from u a.
Proof.
  revert u a. induction fuel as [|fuel IH]; intros u a Hu.
  - simpl in *. by replace u with 0 by lia.
  - cbn [strconv.formatBits]. change (Z.shiftl 1 3) with 8. change (8 - 1) with (Z.ones 3).
    destruct (8 <=? u) eqn:Hbig.
    + apply Z.leb_le in Hbig.
      rewrite Z.land_ones, Z.shiftr_div_pow2 by lia. change (2 ^ 3) with 8.
      rewrite IH.
      * cbn [strconv.parse_octal_from].
        rewrite octal_val_digit by (apply Z.mod_pos_bound; lia).
        f_equal; pose proof (Z.div_mod u 8); lia.
      * split; [apply Z.div_pos; lia|].
        apply Z.div_lt_upper_bound; [lia|].
        rewrite Nat2Z.inj_succ, Z.pow_succ_r in Hu by lia. lia.
    + apply Z.leb_gt in Hbig.
      cbn [strconv.parse_octal_from]. rewrite octal_val_digit by lia.
      f_equal; lia.
Qed.

Lemma formatBits_nonempty (fuel : nat) (u : Z) (a : string) :
  fuel <> O \/ a <> EmptyString -> strconv.formatBits fuel u 3 a <> EmptyString.
Proof.
  revert u a. induction fuel as [|fuel IH]; intros u a Hne.
  - simpl. by destruct Hne.
  - cbn [strconv.formatBits]. destruct (Z.shiftl 1 3 <=? u); [|done].
    apply IH. by right.
Qed.

(** The octal digits of a 32-bit mode, read back in base 8, are the mode. *)
Lemma ParseOctal_FormatUint (fm : Z) :
  0 <= fm < 2 ^ 32 -> strconv.ParseOctal (strconv.FormatUint fm 8) = Some fm.
Proof.
  intros Hfm. unfold strconv.ParseOctal, strconv.FormatUint.
  change (Z.log2 8) with 3.
  pose proof (formatBits_nonempty 65 fm EmptyString) as Hne.
  pose proof (formatBits_parse 65 fm EmptyString) as Hparse.
  destruct (strconv.formatBits 65 fm 3 EmptyString) as [|c digits]; [by destruct Hne; auto|].
  rewrite Hparse.
  - cbn [strconv.parse_octal_from].
    destruct (fm <? 2 ^ 63) eqn:Hlt; [done|]. apply Z.ltb_ge in Hlt. lia.
  - split; [lia|]. eapply Z.lt_trans; [apply Hfm|]. reflexivity.
Qed.

Lemma resolve_octal_String (fm : v1alpha1.FileMode) :
  0 <= fm < 2 ^ 32 -> yaml.resolve_octal (v1alpha1.FileMode_String fm) = Some fm.
Proof. intros Hfm. by apply ParseOctal_FormatUint. Qed.

(** X12: FileMode.MarshalYAML never fails and yields a scalar node tagged
    "!!int" whose value is the mode in octal behind the prefix "0o": read
    as an octal integer, the value is the mode again. *)
Theorem FileMode_MarshalYAML_reads_back (fm : v1alpha1.FileMode) :
  0 <= fm < 2 ^ 32 ->
  exists node, v1alpha1.FileMode_MarshalYAML fm = Ok node
    /\ yaml.Node_Kind node = yaml.ScalarNode
    /\ yaml.Node_Tag node = "!!int"
    /\ yaml.Node_Value node = v1alpha1.FileMode_String fm
    /\ String.prefix "0o" (yaml.Node_Value node) = true
    /\ yaml.resolve_octal (yaml.Node_Value node) = Some fm.
Proof.
  intros Hfm. eexists. split; [reflexivity|].
  do 3 (split; [reflexivity|]). split.
  - cbn [yaml.Node_Value]. unfold v1alpha1.FileMode_String.
    by destruct (strconv.FormatUint fm 8).
  - by apply resolve_octal_String.
Qed.

(** X13: FileMode.String tells modes apart: two different 32-bit modes
    have different strings. *)
Theorem FileMode_String_distinct (fm1 fm2 : v1alpha1.FileMode) :
  0 <= fm1 < 2 ^ 32 -> 0 <= fm2 < 2 ^ 32 ->
  fm1 <> fm2 ->
  v1alpha1.FileMode_String fm1 <> v1alpha1.FileMode_String fm2.
Proof.
  intros H1 H2 Hne Heq.
  apply resolve_octal_String in H1, H2. rewrite Heq in H1. congruence.
Qed.
End FileMode_more.

(** * The further properties at work on the samples *)


Lemma NewState_cni_choices_witness :
  Disks bootstrapping_conn = Ok {| storage.Disks_Disks := [sda] |}
  /\ ExpandingCluster bootstrapping_conn = false
  /\ exists s options, sample_NewState bootstrapping_conn = Ok s
       /\ item_options "Network Config" "type" s = Some options
       /\ head options = Some (ATableHeaders ["CNI"; "description"])
       /\ choice_keys options = Some [Some (AString "flannel"); Some (AString "cilium")].
Proof.
  split; [reflexivity|]. split; [reflexivity|].
  apply (@NewState_cni_choices sample_constants sample_images humanize.exact sample_docs
           bootstrapping_conn {| storage.Disks_Disks := [sda] |}); reflexivity.
Defined.

Lemma session_finalize_witness :
  Disks bootstrapping_conn = Ok {| storage.Disks_Disks := [sda] |}
  /\ exists s0, sample_NewState bootstrapping_conn = Ok s0
       /\ forall es : list (Dest * value),
            (GenConfig (edits es s0)).2
            = GenerateConfiguration bootstrapping_conn (outbound (edits es s0))
            /\ machineapi.CniConfig (outbound (edits es s0))
               = cniPresets !! cni (edits es s0).
Proof.
  split; [reflexivity|].
  apply (@session_finalize sample_constants sample_images humanize.exact sample_docs
           bootstrapping_conn {| storage.Disks_Disks := [sda] |}).
  reflexivity.
Defined.

Lemma session_expanding_cni_witness :
  Disks expanding_conn = Ok {| storage.Disks_Disks := [sda; sdb] |}
  /\ ExpandingCluster expanding_conn = true
  /\ exists s0, sample_NewState expanding_conn = Ok s0
       /\ forall es : list (Dest * value),
            Forall (fun e => e.1 ∈ item_dests s0) es ->
            cni (edits es s0) = "flannel"
            /\ machineapi.CniConfig (outbound (edits es s0)) = cniPresets !! "flannel".
Proof.
  split; [reflexivity|]. split; [reflexivity|].
  apply (@session_expanding_cni sample_constants sample_images humanize.exact sample_docs
           expanding_conn {| storage.Disks_Disks := [sda; sdb] |}); reflexivity.
Defined.

(** 82854000 and 83000000 both humanize to "83 MB"; the first is written
    as a number, the second as the string. *)
Lemma MarshalYAML_distinct_witness :
  82854000 <> 83000000
  /\ humanize.exact_Bytes 82854000 = humanize.exact_Bytes 83000000
  /\ @v1alpha1.MarshalYAML humanize.exact 82854000
     <> @v1alpha1.MarshalYAML humanize.exact 83000000.
Proof.
  split; [discriminate|]. split; [vm_compute; reflexivity|].
  apply (@MarshalYAML_distinct humanize.exact 82854000 83000000).
  discriminate.
Defined.

Lemma FileMode_MarshalYAML_reads_back_witness :
  0 <= 420 < 2 ^ 32
  /\ exists node, v1alpha1.FileMode_MarshalYAML 420 = Ok node
       /\ yaml.Node_Kind node = yaml.ScalarNode
       /\ yaml.Node_Tag node = "!!int"
       /\ yaml.Node_Value node = "0o644"
       /\ String.prefix "0o" (yaml.Node_Value node) = true
       /\ yaml.resolve_octal (yaml.Node_Value node) = Some 420.
Proof.
  split; [lia|].
  apply (FileMode_MarshalYAML_reads_back 420). lia.
Defined.

Lemma FileMode_String_distinct_witness :
  0 <= 420 < 2 ^ 32 /\ 0 <= 493 < 2 ^ 32 /\ 420 <> 493
  /\ v1alpha1.FileMode_String 420 <> v1alpha1.FileMode_String 493.
Proof.
  split; [lia|]. split; [lia|]. split; [lia|].
  apply (FileMode_String_distinct 420 493); lia.
Defined.

(** The modes 0o644 and 0o755, the largest mode, and the sample URL
    parser on a good and a bad endpoint. *)
Example FileMode_String_examples :
  map v1alpha1.FileMode_String [0; 420; 493; 4294967295]
  = ["0o0"; "0o644"; "0o755"; "0o37777777777"].
Proof. vm_compute. reflexivity. Qed.

Example Endpoint_examples :
  @v1alpha1.Endpoint_UnmarshalYAML sample_url None (Ok "https://1.2.3.4:6443")
  = (Some "https://1.2.3.4:6443", None)
  /\ @v1alpha1.Endpoint_UnmarshalYAML sample_url (Some "https://1.2.3.4:6443") (Ok "not a url")
     = (Some "https://1.2.3.4:6443", Some (errorString "invalid character in URL"))
  /\ @v1alpha1.Endpoint_MarshalYAML sample_url (Some "https://1.2.3.4:6443")
     = Returns (Ok (AString "https://1.2.3.4:6443")).
Proof. vm_compute. done. Qed.
